(** * Recipe chatbot backend: [backend/utils.py]

    A shallow embedding of [get_agent_response], the wrapper that puts the
    system prompt in front of a conversation, sends the conversation to the
    completion provider and appends the provider's reply.

    Python's exceptions are explicit: a pure step returns a [result], and the
    one call that leaves the process, [litellm.completion], is a node of a
    small interaction tree, [prog], which [exec] runs against a provider. *)

From Stdlib Require Import String Ascii NArith ZArith.
From stdpp Require Import base option list gmap.

Local Open Scope N_scope.

(** ** Python values *)

(** A Python [str] is a sequence of Unicode code points. *)
Abbreviation str := (list N).

(** An ASCII literal of the source, as a [str]. *)
Definition py (s : string) : str := N_of_ascii <$> list_ascii_of_string s.

(** The line feed written [\n] in a Python literal. *)
Definition LF : string := String (ascii_of_nat 10) EmptyString.

(** The value a provider hands back is read by subscripting only, so it is
    modelled by the JSON-like value it carries. *)
#[warnings="-register-all"]
Inductive pyval : Type :=
  | VNone
  | VBool (b : bool)
  | VInt (z : Z)
  | VStr (s : str)
  | VList (l : list pyval)
  | VDict (d : gmap str pyval).

(** A message of the conversation: [Dict[str, str]]. *)
Abbreviation Message := (gmap str str).

(** What a subscript is taken with: [x["key"]] or [x[0]]. *)
Inductive subscript : Type :=
  | KStr (k : str)
  | KInt (i : Z).

(** What [litellm.completion] is called with: [model=] and [messages=]. *)
Record Request : Type := mkRequest {
  rq_model : str;
  rq_messages : list Message
}.

(** ** Whitespace and [str.strip] *)

(** [str.isspace] on one code point: the ASCII whitespace table and the
    Unicode white-space code points beyond it. *)
Definition isspace (c : N) : bool :=
  (9 <=? c) && (c <=? 13) || (28 <=? c) && (c <=? 32)
  || (c =? 133) || (c =? 160) || (c =? 5760)
  || (8192 <=? c) && (c <=? 8202)
  || (c =? 8232) || (c =? 8233) || (c =? 8239) || (c =? 8287) || (c =? 12288).

Local Close Scope N_scope.

Fixpoint lstrip (s : str) : str :=
  match s with
  | c :: s' => if isspace c then lstrip s' else s
  | [] => []
  end.

Definition rstrip (s : str) : str := reverse (lstrip (reverse s)).

(** [s.strip()] with no argument. *)
Definition strip (s : str) : str := rstrip (lstrip s).

(** ** Constants *)

Definition SYSTEM_PROMPT : str :=
  py (String.concat EmptyString
    ["You are a a helpful kitchen assistance that specialized in creative recipes in tricky situations.";
     "Present only one recipe at a time. If the user doesn't specify what ingredients ";
     "they have available, assume only basic ingredients are available.";
     "Be descriptive in the steps of the recipe, so it is easy to follow.";
     "Have variety in your recipes, don't just recommend the same thing over and over.";
     "You MUST suggest a complete recipe; don't ask follow-up questions.";
     "Mention the serving size in the recipe. If not specified, assume 2 people.";
     "Make sure to include a nutritional information section in the recipe.";
     "Make sure to include specific and precise measurements for the ingredients.";
     "Make sure to include the steps for the recipe.";
     "If the user doesn't specify what ingredients they have available, assume only basic ingredients are available";
     "If the user doesn't specify what cuisine they are looking for, assume they are looking for a recipe that is not specific to any cuisine.";
     "If the user doesn't specify what dietary restrictions they have, assume they have no dietary restrictions.";
     "If the user doesn't specify what skill level they are looking for, assume they are looking for a recipe that is beginner - intermediate level";
     "If the user doesn't specify what time they have to cook, assume something that can be done in 30 minutes or less.";
     "Structure all your recipe responses clearly using Markdown for formatting.";
     "Begin every recipe response with the recipe name as a Level 2 Heading (e.g., ## Amazing Blueberry Muffins).";
     "Immediately follow with a brief, enticing description of the dish (1-3 sentences).";
     "Next, include a section titled ### Ingredients. List all ingredients using a Markdown unordered list (bullet points).";
     "Following ingredients, include a section titled ### Instructions. Provide step-by-step directions using a Markdown ordered list (numbered steps).";
     "Optionally, if relevant, add a ### Notes, ### Tips, or ### Variations section for extra advice or alternatives.";
     "Example of desired Markdown structure for a recipe response:";
     LF;
     "## Golden Pan-Fried Salmon";
     LF;
     LF;
     "A quick and delicious way to prepare salmon with a crispy skin and moist interior, perfect for a weeknight dinner.";
     LF;
     LF;
     "### Ingredients";
     LF;
     "* 2 salmon fillets (approx. 6oz each, skin-on)";
     LF;
     "* 1 tbsp olive oil";
     LF;
     "* Salt, to taste";
     LF;
     "* Black pepper, to taste";
     LF;
     "* 1 lemon, cut into wedges (for serving)";
     LF;
     LF;
     "### Instructions";
     LF;
     "1. Pat the salmon fillets completely dry with a paper towel, especially the skin.";
     LF;
     "2. Season both sides of the salmon with salt and pepper.";
     LF;
     "3. Heat olive oil in a non-stick skillet over medium-high heat until shimmering.";
     LF;
     "4. Place salmon fillets skin-side down in the hot pan.";
     LF;
     "5. Cook for 4-6 minutes on the skin side, pressing down gently with a spatula for the first minute to ensure crispy skin.";
     LF;
     "6. Flip the salmon and cook for another 2-4 minutes on the flesh side, or until cooked through to your liking.";
     LF;
     "7. Serve immediately with lemon wedges.";
     LF;
     LF;
     "### Tips";
     LF;
     "* For extra flavor, add a clove of garlic (smashed) and a sprig of rosemary to the pan while cooking.";
     LF;
     "* Ensure the pan is hot before adding the salmon for the best sear."]%string).

Section Backend.

(** The exceptions a provider call may raise are the provider's own. *)
Variable E : Type.

(** [os.environ] once the [.env] file is loaded. *)
Variable environ : gmap str str.

Definition MODEL_NAME : str :=
  default (py "gpt-4o-mini") (environ !! py "MODEL_NAME").

(** ** Exceptions and results *)

Inductive exn : Type :=
  | KeyError (k : subscript)
  | IndexError
  | TypeError
  | AttributeError
  | ProviderError (e : E).

Inductive result (A : Type) : Type :=
  | Ok (a : A)
  | Err (e : exn).

#[global] Arguments Ok {A} a.
#[global] Arguments Err {A} e.

#[global] Instance result_ret : MRet result := fun A a => Ok a.

#[global] Instance result_bind : MBind result := fun A B f r =>
  match r with
  | Ok a => f a
  | Err e => Err e
  end.

(** ** Subscripting and attributes *)

(** [bool(l)] of a list. *)
Definition truthy {A} (l : list A) : bool :=
  match l with
  | [] => false
  | _ :: _ => true
  end.

(** [l[i]]: a negative index counts from the end. *)
Definition list_getitem {A} (l : list A) (i : Z) : result A :=
  let n := Z.of_nat (length l) in
  let j := (if i <? 0 then i + n else i)%Z in
  if (j <? 0)%Z then Err IndexError
  else match l !! Z.to_nat j with
       | Some a => Ok a
       | None => Err IndexError
       end.

(** [d[k]] on a dict with [str] keys. *)
Definition dict_getitem {V} (d : gmap str V) (k : str) : result V :=
  match d !! k with
  | Some v => Ok v
  | None => Err (KeyError (KStr k))
  end.

(** [x[k]] on a value. *)
Definition getitem (x : pyval) (k : subscript) : result pyval :=
  match x, k with
  | VDict d, KStr s => dict_getitem d s
  | VDict _, KInt _ => Err (KeyError k)
  | VList l, KInt i => list_getitem l i
  | VStr s, KInt i => c ← list_getitem s i; Ok (VStr [c])
  | _, _ => Err TypeError
  end.

(** [x.strip()]: only a [str] has the method. *)
Definition call_strip (x : pyval) : result str :=
  match x with
  | VStr s => Ok (strip s)
  | _ => Err AttributeError
  end.

(** ** Programs that call the provider *)

Inductive prog (A : Type) : Type :=
  | Pure (r : result A)
  | Completion (rq : Request) (k : pyval -> prog A).

#[global] Arguments Pure {A} r.
#[global] Arguments Completion {A} rq k.

Fixpoint prog_bind {A B} (f : A -> prog B) (p : prog A) : prog B :=
  match p with
  | Pure (Ok a) => f a
  | Pure (Err e) => Pure (Err e)
  | Completion rq k => Completion rq (fun v => prog_bind f (k v))
  end.

#[global] Instance prog_ret : MRet prog := fun A a => Pure (Ok a).
#[global] Instance prog_mbind : MBind prog := @prog_bind.

(** [litellm.completion(model=..., messages=...)]. *)
Definition litellm_completion (model : str) (messages : list Message)
  : prog pyval :=
  Completion (mkRequest model messages) (fun v => Pure (Ok v)).

(** ** [get_agent_response] *)

Definition system_message : Message :=
  {[ py "role" := py "system"; py "content" := SYSTEM_PROMPT ]}.

Definition assistant_message (assistant_reply_content : str) : Message :=
  {[ py "role" := py "assistant"; py "content" := assistant_reply_content ]}.

(** [not messages or messages[0]["role"] != "system"]; [or] evaluates its
    right operand only when the left one is false. *)
Definition prompt_missing (messages : list Message) : result bool :=
  if negb (truthy messages) then Ok true
  else
    m ← list_getitem messages 0;
    role ← dict_getitem m (py "role");
    Ok (negb (bool_decide (role = py "system"))).

(** The conversation sent to the provider. *)
Definition current_messages (messages : list Message)
  : result (list Message) :=
  missing ← prompt_missing messages;
  if (missing : bool) then Ok ([system_message] ++ messages)
  else Ok messages.

(** [completion["choices"][0]["message"]]. *)
Definition reply_message (completion : pyval) : result pyval :=
  choices ← getitem completion (KStr (py "choices"));
  choice ← getitem choices (KInt 0);
  getitem choice (KStr (py "message")).

(** [completion["choices"][0]["message"]["content"]]. *)
Definition reply_content (completion : pyval) : result pyval :=
  message ← reply_message completion;
  getitem message (KStr (py "content")).

Definition assistant_reply_content (completion : pyval) : result str :=
  content ← reply_content completion;
  call_strip content.

Definition updated_messages (current_messages : list Message)
    (assistant_reply_content : str) : list Message :=
  current_messages ++ [assistant_message assistant_reply_content].

Definition get_agent_response (messages : list Message)
  : prog (list Message) :=
  current ← Pure (current_messages messages);
  completion ← litellm_completion MODEL_NAME current;
  reply ← Pure (assistant_reply_content completion);
  mret (updated_messages current reply).

(** ** Running a program *)

(** A provider answers a request with a value or raises. *)
Definition Provider : Type := Request -> E + pyval.

(** What a run leaves: the value returned or the exception raised, and the
    requests the provider received, first to last. *)
Record Run (A : Type) : Type := mkRun {
  outcome : result A;
  calls : list Request
}.

#[global] Arguments mkRun {A} outcome calls.
#[global] Arguments outcome {A} r.
#[global] Arguments calls {A} r.

(** No step catches an exception: one raised by the provider ends the run. *)
Fixpoint exec {A} (provider : Provider) (p : prog A) : Run A :=
  match p with
  | Pure r => mkRun r []
  | Completion rq k =>
      match provider rq with
      | inl e => mkRun (Err (ProviderError e)) [rq]
      | inr v =>
          let r := exec provider (k v) in
          mkRun (outcome r) (rq :: calls r)
      end
  end.

(** One invocation of [get_agent_response] against a provider. *)
Definition run_agent (provider : Provider) (messages : list Message)
  : Run (list Message) :=
  exec provider (get_agent_response messages).

End Backend.

Arguments KeyError {E} k.
Arguments IndexError {E}.
Arguments TypeError {E}.
Arguments AttributeError {E}.
Arguments ProviderError {E} e.
Arguments Ok {E A} a.
Arguments Err {E A} e.
Arguments list_getitem {E A} l i.
Arguments dict_getitem {E V} d k.
Arguments getitem {E} x k.
Arguments call_strip {E} x.
Arguments Pure {E A} r.
Arguments Completion {E A} rq k.
Arguments prog_bind {E A B} f p.
Arguments litellm_completion {E} model messages.
Arguments prompt_missing {E} messages.
Arguments current_messages {E} messages.
Arguments reply_message {E} completion.
Arguments reply_content {E} completion.
Arguments assistant_reply_content {E} completion.
Arguments get_agent_response {E} environ messages.
Arguments mkRun {E A} outcome calls.
Arguments outcome {E A} r.
Arguments calls {E A} r.
Arguments exec {E A} provider p.
Arguments run_agent {E} environ provider messages.

(** ** Conditions on inputs and responses *)

(** The first message, when there is one, has a ["role"] key, as a message
    of a conversation does. *)
Definition head_has_role (messages : list Message) : Prop :=
  match messages with
  | [] => True
  | m :: _ => is_Some (m !! py "role")
  end.

(** The list starts with a message whose role is ["system"]. *)
Definition system_first (l : list Message) : Prop :=
  exists m rest, l = m :: rest /\ m !! py "role" = Some (py "system").

(** Every code point of [s] is whitespace. *)
Definition all_space (s : str) : Prop := Forall (fun c => isspace c = true) s.

(** [s] neither starts nor ends with whitespace. *)
Definition trimmed (s : str) : Prop :=
  (forall c, head s = Some c -> isspace c = false)
  /\ (forall c, last s = Some c -> isspace c = false).

(** A response that lacks a field the extraction reads, with the exception
    the missing field raises: no choice at all, a first choice whose message
    has no ["content"], or one whose content is [None]. *)
Inductive malformed {E : Type} : pyval -> exn E -> Prop :=
  | no_choices d :
      d !! py "choices" = Some (VList []) ->
      malformed (VDict d) IndexError
  | content_absent completion message :
      reply_message (E:=E) completion = Ok (VDict message) ->
      message !! py "content" = None ->
      malformed completion (KeyError (KStr (py "content")))
  | content_null completion :
      reply_content (E:=E) completion = Ok VNone ->
      malformed completion AttributeError.

(** ** Sample conversations and providers *)

Definition user_message (content : string) : Message :=
  {[ py "role" := py "user"; py "content" := py content ]}.

Definition custom_system_message : Message :=
  {[ py "role" := py "system"; py "content" := py "custom prompt" ]}.

(** A message whose role is none of the three the provider knows. *)
Definition narrator_message : Message :=
  {[ py "role" := py "narrator"; py "content" := py "meanwhile" ]}.

(** A completion with one choice whose message has the given content. *)
Definition completion_with (content : pyval) : pyval :=
  VDict {[ py "choices" :=
    VList [VDict {[ py "message" := VDict {[ py "content" := content ]} ]}] ]}.

Definition completion_without_choices : pyval :=
  VDict {[ py "choices" := VList [] ]}.

Definition completion_without_content : pyval :=
  VDict {[ py "choices" := VList [VDict {[ py "message" := VDict ∅ ]}] ]}.

(** A provider that answers every request with the same completion. *)
Definition answering (completion : pyval) : Provider unit :=
  fun _ => inr completion.

(** A provider that raises on every request. *)
Definition failing : Provider unit := fun _ => inl tt.

Definition no_override : gmap str str := ∅.

Definition override : gmap str str := {[ py "MODEL_NAME" := py "gpt-4o" ]}.

(** One choice of a completion, with the given content. *)
Definition choice_with (content : pyval) : pyval :=
  VDict {[ py "message" := VDict {[ py "content" := content ]} ]}.

(** A completion with the given choices and a model name beside them. *)
Definition completion_of_choices (choices : list pyval) : pyval :=
  VDict {[ py "choices" := VList choices; py "model" := VStr (py "gpt-4o") ]}.

(** ** Properties of [strip] *)

Section Strip.

Lemma lstrip_split (s : str) :
  exists pre, s = pre ++ lstrip s /\ all_space pre.
Proof.
  induction s as [|c s [pre [Hs Hpre]]]; simpl.
  - exists []. split; [reflexivity | constructor].
  - destruct (isspace c) eqn:Hc.
    + exists (c :: pre). split.
      * simpl. congruence.
      * constructor; assumption.
    + exists []. split; [reflexivity | constructor].
Qed.

Lemma lstrip_head (s : str) (c : N) :
  head (lstrip s) = Some c -> isspace c = false.
Proof.
  induction s as [|a s IH]; simpl; [discriminate |].
  destruct (isspace a) eqn:Ha; [exact IH |].
  simpl. intros [= <-]. exact Ha.
Qed.

Lemma lstrip_all_space (pre s : str) :
  all_space pre -> lstrip (pre ++ s) = lstrip s.
Proof.
  induction 1 as [|c pre Hc _ IH]; simpl; [reflexivity |].
  rewrite Hc. exact IH.
Qed.

Lemma lstrip_fixed (s : str) :
  (forall c, head s = Some c -> isspace c = false) -> lstrip s = s.
Proof.
  destruct s as [|c s]; simpl; [reflexivity |].
  intros H. rewrite (H c eq_refl). reflexivity.
Qed.

Lemma lstrip_suffix (s : str) : lstrip s `suffix_of` s.
Proof.
  destruct (lstrip_split s) as [pre [Hs _]]. exists pre. exact Hs.
Qed.

Lemma lstrip_last (s : str) (c : N) :
  (forall a, last s = Some a -> isspace a = false) ->
  last (lstrip s) = Some c -> isspace c = false.
Proof.
  intros Hs Hc. destruct (lstrip_split s) as [pre [Heq _]].
  apply Hs. rewrite Heq. rewrite last_app, Hc. reflexivity.
Qed.

Lemma rstrip_split (s : str) :
  exists post, s = rstrip s ++ post /\ all_space post.
Proof.
  unfold rstrip. destruct (lstrip_split (reverse s)) as [pre [Hs Hpre]].
  exists (reverse pre). split.
  - rewrite <- reverse_app, <- Hs, reverse_involutive. reflexivity.
  - unfold all_space. apply Forall_reverse. exact Hpre.
Qed.

Lemma rstrip_last (s : str) (c : N) :
  last (rstrip s) = Some c -> isspace c = false.
Proof.
  unfold rstrip. rewrite last_reverse. apply lstrip_head.
Qed.

Lemma rstrip_head (s : str) (c : N) :
  (forall a, head s = Some a -> isspace a = false) ->
  head (rstrip s) = Some c -> isspace c = false.
Proof.
  unfold rstrip. rewrite head_reverse. intros Hs.
  apply lstrip_last. intros a. rewrite last_reverse. apply Hs.
Qed.

(** [strip] cuts whitespace off both ends and stops at the first code point
    that is not whitespace. *)
Lemma strip_split (s : str) :
  exists pre post,
    s = pre ++ strip s ++ post /\ all_space pre /\ all_space post
    /\ trimmed (strip s).
Proof.
  destruct (lstrip_split s) as [pre [Hpre Hsp]].
  destruct (rstrip_split (lstrip s)) as [post [Hpost Hsq]].
  exists pre, post. unfold strip. repeat split; try assumption.
  - rewrite <- Hpost. exact Hpre.
  - intros c. apply rstrip_head. apply lstrip_head.
  - intros c. apply rstrip_last.
Qed.

(** The cut is the only one: a trimmed middle between two runs of whitespace
    is what [strip] returns. *)
Lemma strip_unique (pre t post : str) :
  all_space pre -> all_space post -> trimmed t ->
  strip (pre ++ t ++ post) = t.
Proof.
  intros Hpre Hpost [Hh Hl]. unfold strip.
  rewrite lstrip_all_space by assumption.
  destruct t as [|c t].
  - simpl. rewrite <- (app_nil_r post), lstrip_all_space by assumption.
    reflexivity.
  - rewrite lstrip_fixed by exact Hh.
    unfold rstrip. rewrite reverse_app.
    rewrite lstrip_all_space by (apply Forall_reverse; assumption).
    rewrite lstrip_fixed; [apply reverse_involutive |].
    intros a. rewrite head_reverse. apply Hl.
Qed.

End Strip.

(** ** Normalisation of the conversation *)

Section Normalisation.

Context {E : Type}.

Lemma current_messages_nil :
  current_messages (E:=E) [] = Ok [system_message].
Proof. reflexivity. Qed.

Lemma current_messages_no_role (m : Message) (rest : list Message) :
  m !! py "role" = None ->
  current_messages (E:=E) (m :: rest) = Err (KeyError (KStr (py "role"))).
Proof.
  intros Hm. unfold current_messages, prompt_missing, dict_getitem. simpl.
  rewrite Hm. reflexivity.
Qed.

Lemma current_messages_other (m : Message) (rest : list Message) (role : str) :
  m !! py "role" = Some role -> role <> py "system" ->
  current_messages (E:=E) (m :: rest) = Ok (system_message :: m :: rest).
Proof.
  intros Hm Hne. unfold current_messages, prompt_missing, dict_getitem. simpl.
  rewrite Hm. simpl. rewrite bool_decide_eq_false_2 by exact Hne. reflexivity.
Qed.

Lemma current_messages_system (m : Message) (rest : list Message) :
  m !! py "role" = Some (py "system") ->
  current_messages (E:=E) (m :: rest) = Ok (m :: rest).
Proof.
  intros Hm. unfold current_messages, prompt_missing, dict_getitem. simpl.
  rewrite Hm. reflexivity.
Qed.

(** Normalisation prepends at most the system message, and fails only on a
    first message without a role. *)
Lemma current_messages_cases (messages : list Message) :
  (exists m rest, messages = m :: rest /\ m !! py "role" = None
     /\ current_messages (E:=E) messages = Err (KeyError (KStr (py "role"))))
  \/ (exists pre, (pre = [] \/ pre = [system_message])
     /\ current_messages (E:=E) messages = Ok (pre ++ messages)
     /\ system_first (pre ++ messages)).
Proof.
  destruct messages as [|m rest].
  - right. exists [system_message]. split; [by right |].
    split; [reflexivity |]. by exists system_message, [].
  - destruct (m !! py "role") as [role|] eqn:Hm.
    + right. destruct (decide (role = py "system")) as [->|Hne].
      * exists []. split; [by left |]. split.
        -- by apply current_messages_system.
        -- by exists m, rest.
      * exists [system_message]. split; [by right |]. split.
        -- by apply current_messages_other with role.
        -- by exists system_message, (m :: rest).
    + left. exists m, rest. split; [reflexivity |]. split; [exact Hm |].
      by apply current_messages_no_role.
Qed.

Lemma current_messages_total (messages : list Message) :
  head_has_role messages ->
  exists pre, (pre = [] \/ pre = [system_message])
    /\ current_messages (E:=E) messages = Ok (pre ++ messages).
Proof.
  intros Hrole.
  destruct (current_messages_cases messages)
    as [(m & rest & -> & Hm & _) | (pre & Hpre & Hcur & _)].
  - simpl in Hrole. rewrite Hm in Hrole. by destruct Hrole.
  - by exists pre.
Qed.

End Normalisation.

(** ** One run of [get_agent_response] *)

Section Run.

Context {E : Type}.
Variable environ : gmap str str.
Variable provider : Provider E.

(** A run is its three steps in a row: normalise, call the provider once,
    extract and append. *)
Lemma run_agent_steps (messages : list Message) :
  run_agent environ provider messages =
  match current_messages messages with
  | Err e => mkRun (Err e) []
  | Ok current =>
      let rq := mkRequest (MODEL_NAME environ) current in
      match provider rq with
      | inl e => mkRun (Err (ProviderError e)) [rq]
      | inr completion =>
          mkRun (reply ← assistant_reply_content completion;
                 Ok (updated_messages current reply)) [rq]
      end
  end.
Proof.
  unfold run_agent, get_agent_response.
  destruct (current_messages messages) as [current|e]; simpl; [|reflexivity].
  destruct (provider _) as [e|completion]; simpl; [reflexivity |].
  destruct (assistant_reply_content completion); reflexivity.
Qed.

(** The request of a run, when there is one, carries the normalised
    conversation. *)
Lemma run_agent_calls (messages : list Message) :
  calls (run_agent environ provider messages) =
  match current_messages (E:=E) messages with
  | Err _ => []
  | Ok current => [mkRequest (MODEL_NAME environ) current]
  end.
Proof.
  rewrite run_agent_steps.
  destruct (current_messages messages); simpl; [|reflexivity].
  destruct (provider _); reflexivity.
Qed.

Lemma run_agent_sent (messages : list Message) (rq : Request) :
  calls (run_agent environ provider messages) = [rq] ->
  current_messages (E:=E) messages = Ok (rq_messages rq)
  /\ rq_model rq = MODEL_NAME environ.
Proof.
  rewrite run_agent_calls.
  destruct (current_messages messages); [|discriminate].
  intros [= <-]. split; reflexivity.
Qed.

End Run.

(** ** The contract of [get_agent_response] *)

Section Contract.

Context {E : Type}.
Variable environ : gmap str str.
Variable provider : Provider E.

Ltac sent_request H :=
  let Hcur := fresh "Hcur" in
  let Hmodel := fresh "Hmodel" in
  destruct (run_agent_sent environ provider _ _ H) as [Hcur Hmodel];
  rewrite run_agent_steps, Hcur; cbv zeta;
  match type of H with
  | _ = [?rq] =>
      replace (mkRequest (MODEL_NAME environ) (rq_messages rq)) with rq
        by (destruct rq; simpl in *; congruence)
  end.

(** C1. When the conversation is empty, or its first message has a role
    other than ["system"], the provider receives one request, and the
    history in it is the system message (role ["system"], content
    [SYSTEM_PROMPT]) followed by the input messages as they were given. *)
Theorem default_prefixing (messages : list Message) :
  messages = []
  \/ (exists m rest role,
        messages = m :: rest /\ m !! py "role" = Some role
        /\ role <> py "system") ->
  calls (run_agent environ provider messages)
    = [mkRequest (MODEL_NAME environ) (system_message :: messages)]
  /\ system_message !! py "role" = Some (py "system")
  /\ system_message !! py "content" = Some SYSTEM_PROMPT.
Proof.
  intros H. split; [|split; reflexivity].
  rewrite run_agent_calls.
  destruct H as [-> | (m & rest & role & -> & Hm & Hne)].
  - reflexivity.
  - by rewrite (current_messages_other m rest role).
Qed.

(** C2. When the first message already has role ["system"], the history
    the provider receives is the input list itself. *)
Theorem system_history_unchanged (m : Message) (rest : list Message) :
  m !! py "role" = Some (py "system") ->
  calls (run_agent environ provider (m :: rest))
    = [mkRequest (MODEL_NAME environ) (m :: rest)].
Proof.
  intros Hm. rewrite run_agent_calls.
  by rewrite current_messages_system.
Qed.

(** C3. When the provider answers the request with a completion whose first
    choice has text content, the run returns the history that was sent with
    one message appended: one element longer, equal to the sent history at
    every earlier position, and ending in a message of role
    ["assistant"]. *)
Theorem single_append (messages : list Message) (rq : Request)
    (completion : pyval) (content : str) :
  calls (run_agent environ provider messages) = [rq] ->
  provider rq = inr completion ->
  reply_content (E:=E) completion = Ok (VStr content) ->
  exists out reply,
    outcome (run_agent environ provider messages) = Ok out
    /\ out = rq_messages rq ++ [reply]
    /\ length out = S (length (rq_messages rq))
    /\ (forall i, i < length (rq_messages rq) ->
          out !! i = rq_messages rq !! i)
    /\ last out = Some reply
    /\ reply !! py "role" = Some (py "assistant").
Proof.
  intros Hsent Hanswer Hcontent.
  exists (rq_messages rq ++ [assistant_message (strip content)]),
    (assistant_message (strip content)).
  split.
  { sent_request Hsent. rewrite Hanswer.
    unfold assistant_reply_content. rewrite Hcontent. reflexivity. }
  split; [reflexivity |].
  split; [rewrite length_app; simpl; lia |].
  split; [intros i Hi; by apply lookup_app_l |].
  split; [apply last_snoc |].
  unfold assistant_message. apply lookup_insert_eq.
Qed.

(** C4. The content of the appended message is the text of the first
    choice with the whitespace at its two ends cut off: the text is a run of
    whitespace, then the content, then a run of whitespace, and the content
    neither starts nor ends with whitespace. *)
Theorem content_passthrough (messages : list Message) (rq : Request)
    (completion : pyval) (content : str) :
  calls (run_agent environ provider messages) = [rq] ->
  provider rq = inr completion ->
  reply_content (E:=E) completion = Ok (VStr content) ->
  exists out reply pre post,
    outcome (run_agent environ provider messages) = Ok out
    /\ last out = Some reply
    /\ reply !! py "content" = Some (strip content)
    /\ content = pre ++ strip content ++ post
    /\ all_space pre /\ all_space post /\ trimmed (strip content).
Proof.
  intros Hsent Hanswer Hcontent.
  destruct (strip_split content) as (pre & post & Hsplit & Hpre & Hpost & Ht).
  exists (rq_messages rq ++ [assistant_message (strip content)]),
    (assistant_message (strip content)), pre, post.
  split.
  { sent_request Hsent. rewrite Hanswer.
    unfold assistant_reply_content. rewrite Hcontent. reflexivity. }
  split; [apply last_snoc |].
  split; [|done].
  unfold assistant_message.
  rewrite lookup_insert_ne by (by vm_compute).
  apply lookup_singleton_eq.
Qed.

(** C5. When the call to the provider raises, the run raises the same
    exception and returns no list, and the provider was called once. *)
Theorem provider_error_propagates (messages : list Message) (e : E) :
  calls (run_agent environ provider messages) <> [] ->
  (forall rq, rq ∈ calls (run_agent environ provider messages) ->
     provider rq = inl e) ->
  outcome (run_agent environ provider messages) = Err (ProviderError e)
  /\ length (calls (run_agent environ provider messages)) = 1.
Proof.
  rewrite run_agent_steps.
  destruct (current_messages messages) as [current|e']; simpl; [|done].
  intros _ Hraise.
  destruct (provider _) as [e'|completion] eqn:Hanswer; simpl in *.
  - rewrite Hraise in Hanswer by apply list_elem_of_here.
    split; [congruence | reflexivity].
  - rewrite Hraise in Hanswer by apply list_elem_of_here. discriminate.
Qed.

(** C6. When the completion has no choice, or its first choice has a
    message without content or with content [None], the run raises the
    [IndexError], [KeyError] or [AttributeError] of the failed subscript or
    method call, and returns no list. *)
Theorem malformed_response_propagates (messages : list Message)
    (rq : Request) (completion : pyval) (e : exn E) :
  calls (run_agent environ provider messages) = [rq] ->
  provider rq = inr completion ->
  malformed completion e ->
  outcome (run_agent environ provider messages) = Err e.
Proof.
  intros Hsent Hanswer Hbad.
  sent_request Hsent. rewrite Hanswer. simpl.
  unfold assistant_reply_content.
  destruct Hbad as [d Hd | completion message Hmsg Hnone | completion Hnull].
  - unfold reply_content, reply_message. simpl.
    unfold dict_getitem. rewrite Hd. reflexivity.
  - unfold reply_content. rewrite Hmsg. simpl.
    unfold dict_getitem. rewrite Hnone. reflexivity.
  - rewrite Hnull. reflexivity.
Qed.

End Contract.

Section Invariants.

Context {E : Type}.
Variable environ : gmap str str.
Variable provider : Provider E.

(** C7. Every history the provider receives starts with a message of role
    ["system"], so it is not empty, and so does the list the run returns. *)
Theorem system_message_always_first (messages : list Message) :
  Forall (fun rq => system_first (rq_messages rq))
    (calls (run_agent environ provider messages))
  /\ match outcome (run_agent environ provider messages) with
     | Ok out => system_first out
     | Err _ => True
     end.
Proof.
  rewrite run_agent_steps.
  destruct (current_messages_cases (E:=E) messages)
    as [(m & rest & -> & _ & ->) | (pre & _ & -> & Hfirst)].
  - split; [constructor | exact I].
  - cbv zeta. destruct (provider _) as [e|completion]; simpl.
    + split; [|exact I]. by repeat constructor.
    + split; [by repeat constructor |].
      destruct (assistant_reply_content completion) as [reply|e]; simpl;
        [|exact I].
      destruct Hfirst as (m & rest & -> & Hm).
      by exists m, (rest ++ [assistant_message reply]).
Qed.

(** C8. Whatever the roles of the input messages are, the provider receives
    all of them, each one as it was given and in the order given, after the
    system message when one is prepended; the returned list holds them the
    same way. *)
Theorem role_trust (messages : list Message) :
  head_has_role messages ->
  exists pre,
    (pre = [] \/ pre = [system_message])
    /\ calls (run_agent environ provider messages)
         = [mkRequest (MODEL_NAME environ) (pre ++ messages)]
    /\ (forall i m, messages !! i = Some m ->
          (pre ++ messages) !! (length pre + i) = Some m)
    /\ match outcome (run_agent environ provider messages) with
       | Ok out => exists reply, out = pre ++ messages ++ [reply]
       | Err _ => True
       end.
Proof.
  intros Hrole.
  destruct (current_messages_total (E:=E) messages Hrole)
    as (pre & Hpre & Hcur).
  exists pre. split; [exact Hpre |].
  split; [by rewrite run_agent_calls, Hcur |].
  split; [intros i m Hi; by rewrite lookup_app_r, Nat.add_sub' by lia |].
  rewrite run_agent_steps, Hcur. cbv zeta.
  destruct (provider _) as [e|completion]; simpl; [exact I |].
  destruct (assistant_reply_content completion) as [reply|e]; simpl;
    [|exact I].
  exists (assistant_message reply). unfold updated_messages.
  by rewrite <- app_assoc.
Qed.

(** C9. Normalising a normalised conversation changes nothing. *)
Theorem current_messages_idempotent (messages : list Message) :
  (current ← current_messages (E:=E) messages; current_messages current)
    = current_messages messages
  /\ match current_messages (E:=E) messages with
     | Ok current => current_messages (E:=E) current = Ok current
     | Err _ => True
     end.
Proof.
  destruct (current_messages_cases (E:=E) messages)
    as [(m & rest & -> & _ & ->) | (pre & _ & -> & Hfirst)].
  - split; [reflexivity | exact I].
  - destruct Hfirst as (m & rest & -> & Hm). simpl.
    by rewrite current_messages_system.
Qed.

End Invariants.

(** C10. Two runs on the same conversation in which the provider gives the
    same answers return the same list or raise the same exception, whatever
    else differs between them: the environment and the provider's answers
    to requests that were not made. *)
Theorem get_agent_response_deterministic {E : Type}
    (environ1 environ2 : gmap str str) (provider1 provider2 : Provider E)
    (messages : list Message) :
  (forall rq1 rq2,
     rq1 ∈ calls (run_agent environ1 provider1 messages) ->
     rq2 ∈ calls (run_agent environ2 provider2 messages) ->
     provider1 rq1 = provider2 rq2) ->
  outcome (run_agent environ1 provider1 messages)
    = outcome (run_agent environ2 provider2 messages).
Proof.
  rewrite !run_agent_steps.
  destruct (current_messages messages) as [current|e]; simpl; [|reflexivity].
  intros Hsame.
  rewrite (Hsame (mkRequest (MODEL_NAME environ1) current)
                 (mkRequest (MODEL_NAME environ2) current)).
  - destruct (provider2 _); reflexivity.
  - destruct (provider1 _); apply list_elem_of_here.
  - destruct (provider2 _); apply list_elem_of_here.
Qed.

(** ** The contract on sample runs *)

(** Scenario 1: an empty conversation. *)
Example empty_conversation :
  run_agent no_override (answering (completion_with (VStr (py "reply")))) []
  = mkRun (Ok [system_message; assistant_message (py "reply")])
      [mkRequest (py "gpt-4o-mini") [system_message]].
Proof. reflexivity. Qed.

(** Scenario 3: a conversation that brings its own system message, with the
    model taken from the environment. *)
Example custom_prompt_conversation :
  run_agent override (answering (completion_with (VStr (py " hello  "))))
    [custom_system_message; user_message "hi"]
  = mkRun
      (Ok [custom_system_message; user_message "hi";
           assistant_message (py "hello")])
      [mkRequest (py "gpt-4o") [custom_system_message; user_message "hi"]].
Proof. reflexivity. Qed.

(** A first message without a role stops the run before any request. *)
Example missing_role_conversation :
  run_agent no_override (answering (completion_with (VStr (py "reply"))))
    [{[ py "content" := py "hi" ]}]
  = mkRun (Err (KeyError (KStr (py "role")))) [].
Proof. reflexivity. Qed.

Example malformed_without_content :
  malformed (E:=unit) completion_without_content
    (KeyError (KStr (py "content"))).
Proof. by apply content_absent with ∅. Qed.

Example malformed_null_content :
  malformed (E:=unit) (completion_with VNone) AttributeError.
Proof. by apply content_null. Qed.

Example strip_keeps_inner_whitespace :
  strip (py "  two words ") = py "two words".
Proof. reflexivity. Qed.

Lemma default_prefixing_witness :
  calls (run_agent no_override failing [user_message "I have eggs and flour"])
    = [mkRequest (MODEL_NAME no_override)
         [system_message; user_message "I have eggs and flour"]]
  /\ system_message !! py "role" = Some (py "system")
  /\ system_message !! py "content" = Some SYSTEM_PROMPT.
Proof.
  apply (default_prefixing no_override failing
           [user_message "I have eggs and flour"]).
  right. exists (user_message "I have eggs and flour"), [], (py "user").
  split; [reflexivity |]. split; [reflexivity |]. vm_compute. discriminate.
Defined.

Lemma system_history_unchanged_witness :
  calls (run_agent no_override failing
           [custom_system_message; user_message "hi"])
    = [mkRequest (MODEL_NAME no_override)
         [custom_system_message; user_message "hi"]].
Proof.
  apply (system_history_unchanged no_override failing custom_system_message
           [user_message "hi"]).
  reflexivity.
Defined.

Lemma single_append_witness :
  exists out reply,
    outcome (run_agent no_override
               (answering (completion_with (VStr (py " ok "))))
               [user_message "hi"]) = Ok out
    /\ out = [system_message; user_message "hi"] ++ [reply]
    /\ length out = 3
    /\ (forall i, i < 2 -> out !! i = [system_message; user_message "hi"] !! i)
    /\ last out = Some reply
    /\ reply !! py "role" = Some (py "assistant").
Proof.
  apply (single_append no_override
           (answering (completion_with (VStr (py " ok "))))
           [user_message "hi"]
           (mkRequest (MODEL_NAME no_override)
              [system_message; user_message "hi"])
           (completion_with (VStr (py " ok "))) (py " ok ")).
  - reflexivity.
  - reflexivity.
  - reflexivity.
Defined.

Lemma content_passthrough_witness :
  exists out reply pre post,
    outcome (run_agent no_override
               (answering (completion_with (VStr (py " ok "))))
               [user_message "hi"]) = Ok out
    /\ last out = Some reply
    /\ reply !! py "content" = Some (strip (py " ok "))
    /\ py " ok " = pre ++ strip (py " ok ") ++ post
    /\ all_space pre /\ all_space post /\ trimmed (strip (py " ok ")).
Proof.
  apply (content_passthrough no_override
           (answering (completion_with (VStr (py " ok "))))
           [user_message "hi"]
           (mkRequest (MODEL_NAME no_override)
              [system_message; user_message "hi"])
           (completion_with (VStr (py " ok "))) (py " ok ")).
  - reflexivity.
  - reflexivity.
  - reflexivity.
Defined.

Lemma provider_error_propagates_witness :
  outcome (run_agent no_override failing [user_message "hi"])
    = Err (ProviderError tt)
  /\ length (calls (run_agent no_override failing [user_message "hi"])) = 1.
Proof.
  apply (provider_error_propagates no_override failing [user_message "hi"] tt).
  - vm_compute. discriminate.
  - intros rq _. reflexivity.
Defined.

Lemma malformed_response_propagates_witness :
  outcome (run_agent no_override (answering completion_without_choices) [])
    = Err IndexError.
Proof.
  apply (malformed_response_propagates no_override
           (answering completion_without_choices) []
           (mkRequest (MODEL_NAME no_override) [system_message])
           completion_without_choices IndexError).
  - reflexivity.
  - reflexivity.
  - apply no_choices. reflexivity.
Defined.

Lemma role_trust_witness :
  exists pre,
    (pre = [] \/ pre = [system_message])
    /\ calls (run_agent no_override failing
                [narrator_message; user_message "hi"])
         = [mkRequest (MODEL_NAME no_override)
              (pre ++ [narrator_message; user_message "hi"])]
    /\ (forall i m, [narrator_message; user_message "hi"] !! i = Some m ->
          (pre ++ [narrator_message; user_message "hi"]) !! (length pre + i)
            = Some m)
    /\ match outcome (run_agent no_override failing
                        [narrator_message; user_message "hi"]) with
       | Ok out =>
           exists reply,
             out = pre ++ [narrator_message; user_message "hi"] ++ [reply]
       | Err _ => True
       end.
Proof.
  apply (role_trust no_override failing [narrator_message; user_message "hi"]).
  simpl. exists (py "narrator"). reflexivity.
Defined.

Lemma get_agent_response_deterministic_witness :
  outcome (run_agent no_override
             (answering (completion_with (VStr (py "reply")))) [])
    = outcome (run_agent override
                 (answering (completion_with (VStr (py "reply")))) []).
Proof.
  apply (get_agent_response_deterministic no_override override
           (answering (completion_with (VStr (py "reply"))))
           (answering (completion_with (VStr (py "reply")))) []).
  intros rq1 rq2 _ _. reflexivity.
Defined.

(** ** Further properties of a run *)

Section Further.

Context {E : Type}.
Variable environ : gmap str str.
Variable provider : Provider E.

(** Normalisation leaves a conversation that starts with a system message
    alone and puts the system message before any other. *)
Lemma current_messages_choice (messages current : list Message) :
  current_messages (E:=E) messages = Ok current ->
  (system_first messages /\ current = messages)
  \/ (~ system_first messages /\ current = system_message :: messages).
Proof.
  destruct messages as [|m rest].
  - intros [= <-]. right. split; [|reflexivity].
    intros (m & rest & Hnil & _). discriminate.
  - destruct (m !! py "role") as [role|] eqn:Hm.
    + destruct (decide (role = py "system")) as [->|Hne].
      * rewrite current_messages_system by exact Hm. intros [= <-].
        left. split; [|reflexivity]. by exists m, rest.
      * rewrite (current_messages_other m rest role) by assumption.
        intros [= <-]. right. split; [|reflexivity].
        intros (m' & rest' & [= <- <-] & Hm'). congruence.
    + rewrite current_messages_no_role by exact Hm. discriminate.
Qed.

(** Once the request is sent and answered, what is left of the run is the
    extraction of the reply. *)
Lemma run_agent_answered (messages : list Message) (rq : Request)
    (completion : pyval) :
  calls (run_agent environ provider messages) = [rq] ->
  provider rq = inr completion ->
  outcome (run_agent environ provider messages)
    = (reply ← assistant_reply_content completion;
       Ok (updated_messages (rq_messages rq) reply)).
Proof.
  intros Hsent Hanswer.
  destruct (run_agent_sent environ provider _ _ Hsent) as [Hcur Hmodel].
  rewrite run_agent_steps, Hcur. cbv zeta.
  replace (mkRequest (MODEL_NAME environ) (rq_messages rq)) with rq
    by (destruct rq; simpl in *; congruence).
  rewrite Hanswer. reflexivity.
Qed.

(** A run that returns a list has made its one request and got a text
    reply for it. *)
Lemma run_agent_returned (messages out : list Message) :
  outcome (run_agent environ provider messages) = Ok out ->
  exists current completion content,
    current_messages (E:=E) messages = Ok current
    /\ provider (mkRequest (MODEL_NAME environ) current) = inr completion
    /\ reply_content (E:=E) completion = Ok (VStr content)
    /\ out = current ++ [assistant_message (strip content)].
Proof.
  rewrite run_agent_steps.
  destruct (current_messages messages) as [current|e]; simpl; [|discriminate].
  destruct (provider _) as [e|completion] eqn:Hanswer; simpl; [discriminate |].
  unfold assistant_reply_content.
  destruct (reply_content completion) as [v|e] eqn:Hv; simpl; [|discriminate].
  destruct v; simpl; try discriminate.
  intros [= <-]. by exists current, completion, s.
Qed.

(** The model every request names is the value of [MODEL_NAME] in the
    environment, and ["gpt-4o-mini"] when the environment has none. *)
Theorem request_names_model (messages : list Message) :
  Forall
    (fun rq => rq_model rq = match environ !! py "MODEL_NAME" with
                             | Some name => name
                             | None => py "gpt-4o-mini"
                             end)
    (calls (run_agent environ provider messages)).
Proof.
  rewrite run_agent_calls.
  destruct (current_messages messages) as [current|e]; [|constructor].
  constructor; [|constructor]. simpl. unfold MODEL_NAME.
  by destruct (environ !! py "MODEL_NAME").
Qed.

(** A run calls the provider at most once, whatever the provider answers. *)
Theorem at_most_one_call (messages : list Message) :
  length (calls (run_agent environ provider messages)) <= 1.
Proof.
  rewrite run_agent_calls.
  destruct (current_messages messages); simpl; lia.
Qed.

(** A first message without a ["role"] key raises [KeyError] before the
    provider is called. *)
Theorem missing_role_raises (m : Message) (rest : list Message) :
  m !! py "role" = None ->
  run_agent environ provider (m :: rest)
    = mkRun (Err (KeyError (KStr (py "role")))) [].
Proof.
  intros Hm. rewrite run_agent_steps.
  by rewrite current_messages_no_role.
Qed.

(** A run returns a list only when the provider was called and its first
    choice had text content: the list is then the history sent followed by
    the message of role ["assistant"] with that text stripped. *)
Theorem returned_list_has_reply (messages out : list Message) :
  outcome (run_agent environ provider messages) = Ok out ->
  exists rq completion content,
    calls (run_agent environ provider messages) = [rq]
    /\ provider rq = inr completion
    /\ reply_content (E:=E) completion = Ok (VStr content)
    /\ out = rq_messages rq ++ [assistant_message (strip content)].
Proof.
  intros Hout.
  destruct (run_agent_returned _ _ Hout)
    as (current & completion & content & Hcur & Hanswer & Hcontent & ->).
  exists (mkRequest (MODEL_NAME environ) current), completion, content.
  split; [by rewrite run_agent_calls, Hcur |]. done.
Qed.

(** A returned list is one message longer than a conversation that starts
    with a system message, and two longer than any other. *)
Theorem returned_length (messages out : list Message) :
  outcome (run_agent environ provider messages) = Ok out ->
  (system_first messages -> length out = S (length messages))
  /\ (~ system_first messages -> length out = S (S (length messages))).
Proof.
  intros Hout.
  destruct (run_agent_returned _ _ Hout)
    as (current & completion & content & Hcur & _ & _ & ->).
  rewrite length_app. simpl.
  destruct (current_messages_choice _ _ Hcur) as [[Hs ->] | [Hs ->]];
    simpl; split; intros Hs'; try lia; contradiction.
Qed.

(** A reply of whitespace only is appended as a message with empty
    content. *)
Theorem whitespace_reply_is_empty (messages : list Message) (rq : Request)
    (completion : pyval) (content : str) :
  calls (run_agent environ provider messages) = [rq] ->
  provider rq = inr completion ->
  reply_content (E:=E) completion = Ok (VStr content) ->
  all_space content ->
  outcome (run_agent environ provider messages)
    = Ok (rq_messages rq ++ [assistant_message []]).
Proof.
  intros Hsent Hanswer Hcontent Hspace.
  rewrite (run_agent_answered _ _ _ Hsent Hanswer).
  unfold assistant_reply_content. rewrite Hcontent. simpl.
  assert (strip (content ++ [] ++ []) = []) as Hstrip.
  { apply strip_unique; [exact Hspace | constructor |].
    split; intros c; discriminate. }
  simpl in Hstrip. rewrite app_nil_r in Hstrip. by rewrite Hstrip.
Qed.

(** A reply that neither starts nor ends with whitespace is appended as it
    is. *)
Theorem trimmed_reply_verbatim (messages : list Message) (rq : Request)
    (completion : pyval) (content : str) :
  calls (run_agent environ provider messages) = [rq] ->
  provider rq = inr completion ->
  reply_content (E:=E) completion = Ok (VStr content) ->
  trimmed content ->
  outcome (run_agent environ provider messages)
    = Ok (rq_messages rq ++ [assistant_message content]).
Proof.
  intros Hsent Hanswer Hcontent Htrim.
  rewrite (run_agent_answered _ _ _ Hsent Hanswer).
  unfold assistant_reply_content. rewrite Hcontent. simpl.
  assert (strip ([] ++ content ++ []) = content) as Hstrip.
  { apply strip_unique; [constructor | constructor | exact Htrim]. }
  simpl in Hstrip. rewrite app_nil_r in Hstrip. by rewrite Hstrip.
Qed.

(** Content of the first choice that is not a string has no [strip]: the
    run raises [AttributeError]. *)
Theorem non_string_content_raises (messages : list Message) (rq : Request)
    (completion content : pyval) :
  calls (run_agent environ provider messages) = [rq] ->
  provider rq = inr completion ->
  reply_content (E:=E) completion = Ok content ->
  (forall s, content <> VStr s) ->
  outcome (run_agent environ provider messages) = Err AttributeError.
Proof.
  intros Hsent Hanswer Hcontent Hother.
  rewrite (run_agent_answered _ _ _ Hsent Hanswer).
  unfold assistant_reply_content. rewrite Hcontent. simpl.
  destruct content; try reflexivity. by destruct (Hother s).
Qed.

(** A completion without a ["choices"] key raises [KeyError]. *)
Theorem missing_choices_raises (messages : list Message) (rq : Request)
    (d : gmap str pyval) :
  calls (run_agent environ provider messages) = [rq] ->
  provider rq = inr (VDict d) ->
  d !! py "choices" = None ->
  outcome (run_agent environ provider messages)
    = Err (KeyError (KStr (py "choices"))).
Proof.
  intros Hsent Hanswer Hd.
  rewrite (run_agent_answered _ _ _ Hsent Hanswer).
  unfold assistant_reply_content, reply_content, reply_message. simpl.
  unfold dict_getitem. rewrite Hd. reflexivity.
Qed.

(** The reply is read from the first choice alone: the choices after it and
    the other keys of the completion do not count. *)
Theorem only_first_choice_used (d1 d2 : gmap str pyval) (choice : pyval)
    (others1 others2 : list pyval) :
  d1 !! py "choices" = Some (VList (choice :: others1)) ->
  d2 !! py "choices" = Some (VList (choice :: others2)) ->
  assistant_reply_content (E:=E) (VDict d1)
    = assistant_reply_content (E:=E) (VDict d2).
Proof.
  intros H1 H2.
  unfold assistant_reply_content, reply_content, reply_message. simpl.
  unfold dict_getitem. rewrite H1, H2. reflexivity.
Qed.

End Further.

(** A returned list, with whatever the caller appends to it, is sent as it
    is on the next turn: the system message is not added a second time. *)
Theorem next_turn_sends_history {E : Type}
    (environ1 environ2 : gmap str str) (provider1 provider2 : Provider E)
    (messages out more : list Message) :
  outcome (run_agent environ1 provider1 messages) = Ok out ->
  calls (run_agent environ2 provider2 (out ++ more))
    = [mkRequest (MODEL_NAME environ2) (out ++ more)].
Proof.
  intros Hout.
  destruct (run_agent_returned _ _ _ _ Hout)
    as (current & completion & content & Hcur & _ & _ & ->).
  rewrite run_agent_calls.
  destruct (current_messages_cases (E:=E) messages)
    as [(m & rest & _ & _ & Herr) | (pre & _ & Hok & (m & rest & Hm & Hrole))].
  - congruence.
  - assert (current = m :: rest) as -> by congruence.
    simpl. by rewrite current_messages_system.
Qed.

(** ** The further properties on sample runs *)

Lemma missing_role_raises_witness :
  run_agent no_override failing [{[ py "content" := py "hi" ]}; user_message "x"]
    = mkRun (Err (KeyError (KStr (py "role")))) [].
Proof.
  apply (missing_role_raises no_override failing
           {[ py "content" := py "hi" ]} [user_message "x"]).
  reflexivity.
Defined.

Lemma returned_list_has_reply_witness :
  exists rq completion content,
    calls (run_agent override (answering (completion_with (VStr (py " ok "))))
             [user_message "hi"]) = [rq]
    /\ answering (completion_with (VStr (py " ok "))) rq = inr completion
    /\ reply_content (E:=unit) completion = Ok (VStr content)
    /\ [system_message; user_message "hi"; assistant_message (py "ok")]
         = rq_messages rq ++ [assistant_message (strip content)].
Proof.
  apply (returned_list_has_reply override
           (answering (completion_with (VStr (py " ok "))))
           [user_message "hi"]
           [system_message; user_message "hi"; assistant_message (py "ok")]).
  reflexivity.
Defined.

Lemma returned_length_witness :
  (system_first [custom_system_message; user_message "hi"] ->
     length [custom_system_message; user_message "hi";
             assistant_message (py "ok")] = 3)
  /\ (~ system_first [custom_system_message; user_message "hi"] ->
     length [custom_system_message; user_message "hi";
             assistant_message (py "ok")] = 4).
Proof.
  apply (returned_length no_override
           (answering (completion_with (VStr (py " ok "))))
           [custom_system_message; user_message "hi"]
           [custom_system_message; user_message "hi";
            assistant_message (py "ok")]).
  reflexivity.
Defined.

Lemma whitespace_reply_is_empty_witness :
  outcome (run_agent no_override
             (answering (completion_with (VStr (py "   ")))) [])
    = Ok ([system_message] ++ [assistant_message []]).
Proof.
  apply (whitespace_reply_is_empty no_override
           (answering (completion_with (VStr (py "   ")))) []
           (mkRequest (MODEL_NAME no_override) [system_message])
           (completion_with (VStr (py "   "))) (py "   ")).
  - reflexivity.
  - reflexivity.
  - reflexivity.
  - vm_compute. repeat constructor.
Defined.

Lemma trimmed_reply_verbatim_witness :
  outcome (run_agent no_override
             (answering (completion_with (VStr (py "two words")))) [])
    = Ok ([system_message] ++ [assistant_message (py "two words")]).
Proof.
  apply (trimmed_reply_verbatim no_override
           (answering (completion_with (VStr (py "two words")))) []
           (mkRequest (MODEL_NAME no_override) [system_message])
           (completion_with (VStr (py "two words"))) (py "two words")).
  - reflexivity.
  - reflexivity.
  - reflexivity.
  - split; intros c Hc; vm_compute in Hc; injection Hc as <-; reflexivity.
Defined.

Lemma non_string_content_raises_witness :
  outcome (run_agent no_override
             (answering (completion_with (VList [VStr (py "part")]))) [])
    = Err AttributeError.
Proof.
  apply (non_string_content_raises no_override
           (answering (completion_with (VList [VStr (py "part")]))) []
           (mkRequest (MODEL_NAME no_override) [system_message])
           (completion_with (VList [VStr (py "part")]))
           (VList [VStr (py "part")])).
  - reflexivity.
  - reflexivity.
  - reflexivity.
  - intros s. discriminate.
Defined.

Lemma missing_choices_raises_witness :
  outcome (run_agent no_override
             (answering (VDict {[ py "error" := VStr (py "overloaded") ]})) [])
    = Err (KeyError (KStr (py "choices"))).
Proof.
  apply (missing_choices_raises no_override
           (answering (VDict {[ py "error" := VStr (py "overloaded") ]})) []
           (mkRequest (MODEL_NAME no_override) [system_message])
           {[ py "error" := VStr (py "overloaded") ]}).
  - reflexivity.
  - reflexivity.
  - reflexivity.
Defined.

Lemma only_first_choice_used_witness :
  assistant_reply_content (E:=unit)
    (completion_of_choices
       [choice_with (VStr (py "first")); choice_with (VStr (py "second"))])
  = assistant_reply_content (E:=unit)
      (VDict {[ py "choices" := VList [choice_with (VStr (py "first"))] ]}).
Proof.
  apply (only_first_choice_used (E:=unit)
           {[ py "choices" :=
                VList [choice_with (VStr (py "first"));
                       choice_with (VStr (py "second"))];
              py "model" := VStr (py "gpt-4o") ]}
           {[ py "choices" := VList [choice_with (VStr (py "first"))] ]}
           (choice_with (VStr (py "first")))
           [choice_with (VStr (py "second"))] []).
  - reflexivity.
  - reflexivity.
Defined.

Lemma next_turn_sends_history_witness :
  calls (run_agent override failing
           ([system_message; user_message "hi"; assistant_message (py "ok")]
              ++ [user_message "more"]))
    = [mkRequest (MODEL_NAME override)
         ([system_message; user_message "hi"; assistant_message (py "ok")]
            ++ [user_message "more"])].
Proof.
  apply (next_turn_sends_history no_override override
           (answering (completion_with (VStr (py " ok ")))) failing
           [user_message "hi"]
           [system_message; user_message "hi"; assistant_message (py "ok")]
           [user_message "more"]).
  reflexivity.
Defined.
